(** * The Mailgun backend of django-anymail: payload construction and
      response parsing ([anymail/backends/mailgun.py])

    The development is a shallow embedding of [MailgunBackend] and
    [MailgunPayload].  Python objects are values of [pyval]; the dictionary
    [self.data] is a [gmap string pyval]; an exception is a value of [exn]
    carried by the error monad [result]; every method that mutates [self]
    takes the payload and returns the new one. *)

From Stdlib Require Import Ascii String ZArith DecimalString.
From stdpp Require Import gmap strings list fin_maps.

#[local] Set Warnings "-register-all".

Local Open Scope string_scope.

(** ** Python values *)

(** The fragment of Python objects the backend handles: what [json] decodes
    a response body to (floats apart), and any other object, which is known
    by the texts [str()] and [repr()] give for it.  A string is a sequence
    of code points below 256; a dictionary keeps its items in insertion
    order and has string keys. *)
Inductive pyval : Type :=
| PyNone
| PyBool (b : bool)
| PyInt (n : Z)
| PyStr (s : string)
| PyList (items : list pyval)
| PyDict (items : list (string * pyval))
| PyObject (str_ repr_ : string).

(** ** Exceptions and the error monad *)

Inductive exn : Type :=
| KeyError (key : string)
| TypeError
| ValueError
| AttributeError
| AssertionError
| AnymailError (describe : string)
| AnymailRequestsAPIError (describe : string)
| AnymailSerializationError.

Inductive result (A : Type) : Type :=
| Ok (a : A)
| Raise (e : exn).
Arguments Ok {A} a.
Arguments Raise {A} e.

#[global] Instance result_ret : MRet result := @Ok.
#[global] Instance result_bind : MBind result := fun A B f m =>
  match m with
  | Ok a => f a
  | Raise e => Raise e
  end.

(** [try: m except handler]: run [m]; an exception goes through [handler],
    which re-raises what its [except] clause does not name. *)
Definition try_except {A} (m : result A) (handler : exn -> result A) : result A :=
  match m with
  | Ok a => Ok a
  | Raise e => handler e
  end.

(** ** Strings *)

(** The double quote character. *)
Definition dquote : ascii := "034"%char.

Definition str_of_Z (n : Z) : string := NilZero.string_of_int (Z.to_int n).

Definition hex_digit (n : N) : ascii :=
  match get (N.to_nat n) "0123456789abcdef" with
  | Some c => c
  | None => "0"%char
  end.

Definition hex2 (c : ascii) : string :=
  let n := N_of_ascii c in
  String (hex_digit (n / 16)) (String (hex_digit (n mod 16)) "").

Definition concat_map (f : ascii -> string) : string -> string :=
  fix go s :=
    match s with
    | EmptyString => ""
    | String c s' => f c +:+ go s'
    end.

(** [s.startswith(prefix)] *)
Definition startswith (s pre : string) : bool := String.prefix pre s.

(** [s.split(sep)] for a separator of one character. *)
Fixpoint split (sep : ascii) (s : string) : list string :=
  match s with
  | EmptyString => [""]
  | String c s' =>
      if Ascii.eqb c sep then "" :: split sep s'
      else match split sep s' with
           | [] => [String c ""]
           | w :: ws => String c w :: ws
           end
  end.

(** How many times [c] occurs in [s]. *)
Fixpoint count_char (c : ascii) (s : string) : nat :=
  match s with
  | EmptyString => 0
  | String x s' => (if Ascii.eqb x c then 1 else 0) + count_char c s'
  end.

(** [a, b = parts]: unpacking into two names. *)
Definition unpack2 {A} (parts : list A) : result (A * A) :=
  match parts with
  | [a; b] => Ok (a, b)
  | _ => Raise ValueError
  end.

(** [sep.join(parts)] *)
Fixpoint join (sep : string) (parts : list string) : string :=
  match parts with
  | [] => ""
  | [x] => x
  | x :: rest => x +:+ sep +:+ join sep rest
  end.

(** *** [repr] and [str] (Python 3) *)

Definition printable (c : ascii) : bool :=
  let n := N_of_ascii c in
  ((32 <=? n) && (n <? 127) || (161 <=? n) && negb (n =? 173))%N.

Definition contains (c : ascii) (s : string) : bool :=
  existsb (Ascii.eqb c) (list_ascii_of_string s).

Definition repr_quote (s : string) : ascii :=
  if contains "'" s && negb (contains dquote s) then dquote else "'"%char.

Definition repr_char (q c : ascii) : string :=
  if Ascii.eqb c "\" then "\\"
  else if Ascii.eqb c q then String "\" (String q "")
  else if Ascii.eqb c "009" then "\t"
  else if Ascii.eqb c "010" then "\n"
  else if Ascii.eqb c "013" then "\r"
  else if printable c then String c ""
  else "\x" +:+ hex2 c.

Definition repr_str (s : string) : string :=
  let q := repr_quote s in
  String q (concat_map (repr_char q) s) +:+ String q "".

Fixpoint py_repr (v : pyval) : string :=
  match v with
  | PyNone => "None"
  | PyBool b => if b then "True" else "False"
  | PyInt n => str_of_Z n
  | PyStr s => repr_str s
  | PyList items => "[" +:+ join ", " (map py_repr items) +:+ "]"
  | PyDict items =>
      "{" +:+ join ", " (map (fun kv => repr_str kv.1 +:+ ": " +:+ py_repr kv.2) items) +:+ "}"
  | PyObject _ repr_ => repr_
  end.

(** [str(v)], which is also what ["%s" % v] formats. *)
Definition py_str (v : pyval) : string :=
  match v with
  | PyStr s => s
  | PyObject str_ _ => str_
  | _ => py_repr v
  end.

(** *** JSON text *)

Definition json_escape_char (c : ascii) : string :=
  let n := N_of_ascii c in
  if Ascii.eqb c dquote then String "\" (String dquote "")
  else if Ascii.eqb c "\" then "\\"
  else if Ascii.eqb c "008" then "\b"
  else if Ascii.eqb c "009" then "\t"
  else if Ascii.eqb c "010" then "\n"
  else if Ascii.eqb c "012" then "\f"
  else if Ascii.eqb c "013" then "\r"
  else if ((32 <=? n) && (n <? 127))%N then String c ""
  else "\u00" +:+ hex2 c.

Definition json_quote (s : string) : string :=
  String dquote (concat_map json_escape_char s) +:+ String dquote "".

Definition item_separator : string := ",".
Definition key_separator : string := ":".

(** Modelled from the spec: the JSON serialization primitive behind
    [BasePayload.serialize_json] (anymail/backends/base.py is not among the
    sources).  It gives the literal JSON text of a value, in the compact form
    of the spec's example, and [None] for a value that has no JSON form. *)
Fixpoint json_dumps (v : pyval) : option string :=
  match v with
  | PyNone => Some "null"
  | PyBool b => Some (if b then "true" else "false")
  | PyInt n => Some (str_of_Z n)
  | PyStr s => Some (json_quote s)
  | PyList items =>
      texts ← mapM json_dumps items;
      Some ("[" +:+ join item_separator texts +:+ "]")
  | PyDict items =>
      texts ← mapM (fun kv => match kv with
                              | (k, x) => t ← json_dumps x;
                                          Some (json_quote k +:+ key_separator +:+ t)
                              end) items;
      Some ("{" +:+ join item_separator texts +:+ "}")
  | PyObject _ _ => None
  end.

(** ** Operations on Python values *)

(** The value a dictionary holds for [key]; the items of a dictionary have
    distinct keys. *)
Definition dict_get (key : string) (items : list (string * pyval)) : option pyval :=
  snd <$> find (fun kv => String.eqb kv.1 key) items.

(** [obj[key]] for a string [key]: only a dictionary can be indexed by one. *)
Definition getitem (obj : pyval) (key : string) : result pyval :=
  match obj with
  | PyDict items =>
      match dict_get key items with
      | Some x => Ok x
      | None => Raise (KeyError key)
      end
  | _ => Raise TypeError
  end.

(** [obj.startswith(pre)]: only a string has the method. *)
Definition py_startswith (obj : pyval) (pre : string) : result bool :=
  match obj with
  | PyStr s => Ok (startswith s pre)
  | _ => Raise AttributeError
  end.

(** ** The data model *)

(** An address object of the message model: [address] is the text [str()]
    gives (the address as it appeared in the message), [email] the plain
    [local@domain] part. *)
Record ParsedEmail : Type := { address : string; email : string }.

Record Attachment : Type :=
  { name : string; content : string; mimetype : string; inline : bool }.

(** A [datetime] instance, known by the text [utils.rfc2822date] renders
    for it. *)
Record datetime : Type := { rfc2822date : string }.

(** The argument of [set_send_at]: [isinstance(send_at, datetime)] or not. *)
Inductive send_at_value : Type :=
| SendAtDatetime (d : datetime)
| SendAtOther (v : pyval).

Record AnymailRecipientStatus : Type := { message_id : pyval; status : string }.

(** The state of a [MailgunPayload]: [sender_domain] is [PyNone] while it
    is unset; [unsupported] holds the notices of [unsupported_feature]. *)
Record MailgunPayload : Type :=
  { sender_domain : pyval;
    all_recipients : list ParsedEmail;
    data : gmap string pyval;
    files : list (string * (string * string * string));
    unsupported : list string }.

Definition with_sender_domain (d : pyval) (p : MailgunPayload) : MailgunPayload :=
  {| sender_domain := d; all_recipients := all_recipients p; data := data p;
     files := files p; unsupported := unsupported p |}.

Definition with_data (m : gmap string pyval) (p : MailgunPayload) : MailgunPayload :=
  {| sender_domain := sender_domain p; all_recipients := all_recipients p; data := m;
     files := files p; unsupported := unsupported p |}.

(** [self.data[field] = value] *)
Definition set_data (field : string) (value : pyval) (p : MailgunPayload) : MailgunPayload :=
  with_data (<[field := value]> (data p)) p.

(** ** MailgunPayload *)

(** [__init__] and [init_payload] *)
Definition init_payload : MailgunPayload :=
  {| sender_domain := PyNone; all_recipients := []; data := ∅; files := [];
     unsupported := [] |}.

Definition unknown_sender_domain : string :=
  "Cannot call Mailgun unknown sender domain. Either provide valid `from_email`, or set `message.esp_extra={'sender_domain': 'example.com'}`".

Definition get_api_endpoint (p : MailgunPayload) : result string :=
  match sender_domain p with
  | PyNone => Raise (AnymailError unknown_sender_domain)
  | d => Ok (py_str d +:+ "/messages")
  end.

Definition set_from_email (e : ParsedEmail) (p : MailgunPayload) : result MailgunPayload :=
  let p := set_data "from" (PyStr (address e)) p in
  match sender_domain p with
  | PyNone =>
      try_except
        ('(_, domain) ← unpack2 (split "@" (email e));
         Ok (with_sender_domain (PyStr domain) p))
        (fun ex => match ex with
                   | ValueError => Ok p
                   | _ => Raise ex
                   end)
  | _ => Ok p
  end.

Definition set_recipients (recipient_type : string) (emails : list ParsedEmail)
    (p : MailgunPayload) : result MailgunPayload :=
  if bool_decide (recipient_type ∈ ["to"; "cc"; "bcc"]) then
    match emails with
    | [] => Ok p
    | _ =>
        let p := set_data recipient_type (PyList (map (fun e => PyStr (address e)) emails)) p in
        Ok {| sender_domain := sender_domain p;
              all_recipients := all_recipients p ++ emails;
              data := data p; files := files p; unsupported := unsupported p |}
    end
  else Raise AssertionError.

Definition set_subject (subject : pyval) (p : MailgunPayload) : result MailgunPayload :=
  Ok (set_data "subject" subject p).

Definition set_reply_to (emails : list ParsedEmail) (p : MailgunPayload)
    : result MailgunPayload :=
  match emails with
  | [] => Ok p
  | _ => Ok (set_data "h:Reply-To" (PyStr (join ", " (map address emails))) p)
  end.

Definition set_extra_headers (headers : list (string * pyval)) (p : MailgunPayload)
    : result MailgunPayload :=
  Ok (foldl (fun p kv => set_data ("h:" +:+ kv.1) kv.2 p) p headers).

Definition set_text_body (body : pyval) (p : MailgunPayload) : result MailgunPayload :=
  Ok (set_data "text" body p).

(** Modelled from the spec: [BasePayload.unsupported_feature]
    (anymail/backends/base.py is not among the sources).  The notice is
    recorded and nothing is raised. *)
Definition unsupported_feature (feature : string) (p : MailgunPayload)
    : result MailgunPayload :=
  Ok {| sender_domain := sender_domain p; all_recipients := all_recipients p;
        data := data p; files := files p;
        unsupported := unsupported p ++ [feature] |}.

Definition set_html_body (body : pyval) (p : MailgunPayload) : result MailgunPayload :=
  p ← (if bool_decide (is_Some (data p !! "html"))
       then unsupported_feature "multiple html parts" p
       else Ok p);
  Ok (set_data "html" body p).

Definition add_attachment (attachment : Attachment) (p : MailgunPayload)
    : result MailgunPayload :=
  let field := if inline attachment then "inline" else "attachment" in
  Ok {| sender_domain := sender_domain p; all_recipients := all_recipients p;
        data := data p;
        files := files p ++
                 [(field, (name attachment, content attachment, mimetype attachment))];
        unsupported := unsupported p |}.

(** Modelled from the spec: [BasePayload.serialize_json]
    (anymail/backends/base.py is not among the sources): the JSON text of
    the value, or the classified serialization error. *)
Definition serialize_json (value : pyval) : result string :=
  match json_dumps value with
  | Some text => Ok text
  | None => Raise AnymailSerializationError
  end.

(** The loop of [set_metadata] over [metadata.items()]. *)
Fixpoint set_metadata (metadata : list (string * pyval)) (p : MailgunPayload)
    : result MailgunPayload :=
  match metadata with
  | [] => Ok p
  | (key, value) :: rest =>
      json ← serialize_json value;
      let json := if startswith json (String dquote "") then value else PyStr json in
      set_metadata rest (set_data ("v:" +:+ key) json p)
  end.

Definition set_send_at (send_at : send_at_value) (p : MailgunPayload)
    : result MailgunPayload :=
  let send_at := match send_at with
                 | SendAtDatetime d => PyStr (rfc2822date d)
                 | SendAtOther v => v
                 end in
  Ok (set_data "o:deliverytime" send_at p).

Definition set_tags (tags : pyval) (p : MailgunPayload) : result MailgunPayload :=
  Ok (set_data "o:tag" tags p).

Definition set_track_clicks (track_clicks : bool) (p : MailgunPayload)
    : result MailgunPayload :=
  Ok (set_data "o:tracking-clicks" (PyStr (if track_clicks then "yes" else "no")) p).

Definition set_track_opens (track_opens : bool) (p : MailgunPayload)
    : result MailgunPayload :=
  Ok (set_data "o:tracking-opens" (PyStr (if track_opens then "yes" else "no")) p).

(** [self.data.update(extra)], then the pop of ["sender_domain"] with the
    current sender domain as its default. *)
Definition set_esp_extra (extra : gmap string pyval) (p : MailgunPayload)
    : result MailgunPayload :=
  let p := with_data (extra ∪ data p) p in
  let popped := default (sender_domain p) (data p !! "sender_domain") in
  Ok (with_sender_domain popped (with_data (delete "sender_domain" (data p)) p)).

(** One call of a setter, and a payload built by a sequence of calls. *)
Inductive setter : Type :=
| SetFromEmail (e : ParsedEmail)
| SetRecipients (recipient_type : string) (emails : list ParsedEmail)
| SetSubject (subject : pyval)
| SetReplyTo (emails : list ParsedEmail)
| SetExtraHeaders (headers : list (string * pyval))
| SetTextBody (body : pyval)
| SetHtmlBody (body : pyval)
| AddAttachment (attachment : Attachment)
| SetMetadata (metadata : list (string * pyval))
| SetSendAt (send_at : send_at_value)
| SetTags (tags : pyval)
| SetTrackClicks (track_clicks : bool)
| SetTrackOpens (track_opens : bool)
| SetEspExtra (extra : gmap string pyval).

Definition call (c : setter) : MailgunPayload -> result MailgunPayload :=
  match c with
  | SetFromEmail e => set_from_email e
  | SetRecipients t emails => set_recipients t emails
  | SetSubject subject => set_subject subject
  | SetReplyTo emails => set_reply_to emails
  | SetExtraHeaders headers => set_extra_headers headers
  | SetTextBody body => set_text_body body
  | SetHtmlBody body => set_html_body body
  | AddAttachment a => add_attachment a
  | SetMetadata metadata => set_metadata metadata
  | SetSendAt send_at => set_send_at send_at
  | SetTags tags => set_tags tags
  | SetTrackClicks b => set_track_clicks b
  | SetTrackOpens b => set_track_opens b
  | SetEspExtra extra => set_esp_extra extra
  end.

Fixpoint calls (cs : list setter) (p : MailgunPayload) : result MailgunPayload :=
  match cs with
  | [] => Ok p
  | c :: cs' => p' ← call c p; calls cs' p'
  end.

(** ** MailgunBackend *)

Section Backend.
(** The responses of the transport and [deserialize_json_response] belong
    to [AnymailRequestsBackend] (anymail/backends/base_requests.py, not
    among the sources): the backend is written over any such pair. *)
Context {Response : Type}.
Variable deserialize_json_response : Response -> result pyval.

Definition invalid_response_format : exn :=
  AnymailRequestsAPIError "Invalid Mailgun API response format".

Definition unrecognized_message (mailgun_message : pyval) : exn :=
  AnymailRequestsAPIError
    ("Unrecognized Mailgun API message '" +:+ py_str mailgun_message +:+ "'").

Definition parse_recipient_status (response : Response) (payload : MailgunPayload)
    : result (gmap string AnymailRecipientStatus) :=
  parsed_response ← deserialize_json_response response;
  '(message_id, mailgun_message) ←
    try_except
      (message_id ← getitem parsed_response "id";
       mailgun_message ← getitem parsed_response "message";
       Ok (message_id, mailgun_message))
      (fun ex => match ex with
                 | KeyError _ | TypeError => Raise invalid_response_format
                 | _ => Raise ex
                 end);
  queued ← py_startswith mailgun_message "Queued";
  if negb queued then Raise (unrecognized_message mailgun_message)
  else
    let status := {| message_id := message_id; status := "queued" |} in
    Ok (foldl (fun statuses recipient => <[email recipient := status]> statuses)
              ∅ (all_recipients payload)).
End Backend.

(** A response known by what its body decodes to: [None] when the body is
    no JSON text. *)
Definition decoded_response : Type := option pyval.

(** Modelled from the spec: [deserialize_json_response] of
    [AnymailRequestsBackend] (anymail/backends/base_requests.py is not among
    the sources) on such a response: the decoded value, or the classified
    API error when the body cannot be decoded. *)
Definition decode (response : decoded_response) : result pyval :=
  match response with
  | Some v => Ok v
  | None => Raise (AnymailRequestsAPIError "Invalid JSON in Mailgun API response")
  end.

(** ** Sequences of recipient calls *)

(** The calls of the recipient setter for a list of (type, addresses). *)
Definition recipient_calls (l : list (string * list ParsedEmail)) : list setter :=
  map (fun c => SetRecipients c.1 c.2) l.

Definition stringified (emails : list ParsedEmail) : pyval :=
  PyList (map (fun e => PyStr (address e)) emails).

(** ** Sample data *)

Definition a_example : ParsedEmail :=
  {| address := "a@example.com"; email := "a@example.com" |}.

Definition a_x : ParsedEmail := {| address := "a@x.com"; email := "a@x.com" |}.

Definition b_x : ParsedEmail := {| address := "B <b@x.com>"; email := "b@x.com" |}.

Definition c_y : ParsedEmail := {| address := "c@y.org"; email := "c@y.org" |}.

Definition from_a_example : MailgunPayload :=
  with_sender_domain (PyStr "example.com")
    (set_data "from" (PyStr "a@example.com") init_payload).

Definition to_a_b : MailgunPayload :=
  {| sender_domain := PyStr "x.com"; all_recipients := [a_x; b_x];
     data := {[ "to" := stringified [a_x; b_x] ]}; files := []; unsupported := [] |}.

Definition override_extra : gmap string pyval :=
  {[ "sender_domain" := PyStr "override.com" ]}.

Definition testmode_extra : gmap string pyval := {[ "o:testmode" := PyStr "yes" ]}.

Definition first_html : pyval := PyStr "<p>first</p>".

Definition second_html : pyval := PyStr "<p>second</p>".

Definition example_metadata : list (string * pyval) :=
  [("greeting", PyStr "hello"); ("count", PyInt 42); ("nested", PyDict [("a", PyInt 1)])].

Definition bad_metadata : list (string * pyval) :=
  [("greeting", PyStr "hello"); ("handle", PyObject "<object>" "<object>")].

Definition example_recipients : list (string * list ParsedEmail) :=
  [("to", [a_x; b_x]); ("cc", [c_y]); ("bcc", [a_x])].

Definition queued_response : decoded_response :=
  Some (PyDict [("id", PyStr "MSG123"); ("message", PyStr "Queued. Thank you.")]).

Definition rejected_response : decoded_response :=
  Some (PyDict [("id", PyStr "MSG123"); ("message", PyStr "Rejected")]).

Definition missing_id_response : decoded_response :=
  Some (PyDict [("message", PyStr "Queued. Thank you.")]).

Definition numeric_id_response : decoded_response :=
  Some (PyDict [("id", PyInt 42); ("message", PyStr "Queued. Thank you.")]).

(** ** The api url of [MailgunBackend.__init__] *)

(** [s.endswith(suf)]: some suffix of [s] is [suf]. *)
Fixpoint endswith (s suf : string) : bool :=
  String.eqb s suf ||
  match s with
  | EmptyString => false
  | String _ s' => endswith s' suf
  end.

Definition default_api_url : string := "https://api.mailgun.net/v3".

(** The url [__init__] hands to the requests backend; [setting] is the
    value of [MAILGUN_API_URL] in the settings, [None] when it is not set
    (the call of [get_anymail_setting] names the default). *)
Definition init_api_url (setting : option string) : string :=
  let api_url := default default_api_url setting in
  if negb (endswith api_url "/") then api_url +:+ "/" else api_url.

(** ** What a sequence of calls passes to the payload *)

Definition recipients_of (c : setter) : list ParsedEmail :=
  match c with
  | SetRecipients _ emails => emails
  | _ => []
  end.

(** The file part [add_attachment] appends. *)
Definition file_part (attachment : Attachment) : string * (string * string * string) :=
  (if inline attachment then "inline" else "attachment",
   (name attachment, content attachment, mimetype attachment)).

Definition parts_of (c : setter) : list (string * (string * string * string)) :=
  match c with
  | AddAttachment attachment => [file_part attachment]
  | _ => []
  end.

Definition sets_sender_domain (c : setter) : bool :=
  match c with
  | SetFromEmail _ | SetEspExtra _ => true
  | _ => false
  end.

Definition is_html_body (c : setter) : bool :=
  match c with
  | SetHtmlBody _ => true
  | _ => false
  end.

Definition is_esp_extra (c : setter) : bool :=
  match c with
  | SetEspExtra _ => true
  | _ => false
  end.

(** A value [json] can decode to that is not a string. *)
Definition json_non_string (v : pyval) : bool :=
  match v with
  | PyStr _ | PyObject _ _ => false
  | _ => true
  end.

Definition reply_to_header (v : pyval) : list (string * pyval) := [("Reply-To", v)].

Definition pdf_attachment : Attachment :=
  {| name := "report.pdf"; content := "%PDF"; mimetype := "application/pdf";
     inline := false |}.

Definition logo_attachment : Attachment :=
  {| name := "logo.png"; content := "PNG"; mimetype := "image/png"; inline := true |}.

Definition example_headers : list (string * pyval) :=
  [("X-Campaign", PyStr "spring"); ("X-Priority", PyInt 1)].

Definition example_build : list setter :=
  [SetFromEmail a_example; SetRecipients "to" [a_x; b_x]; SetSubject (PyStr "Hello");
   AddAttachment pdf_attachment; SetRecipients "cc" [c_y]; SetHtmlBody first_html;
   AddAttachment logo_attachment; SetHtmlBody second_html; SetTrackClicks true].

Definition no_sender_build : list setter :=
  [SetRecipients "to" [a_x]; SetSubject (PyStr "Hello"); SetTextBody (PyStr "Hi");
   SetTags (PyList [PyStr "welcome"])].

Definition subject_extra : gmap string pyval :=
  {[ "subject" := PyStr "Overridden"; "sender_domain" := PyStr "override.com" ]}.

(** How many of the calls are calls of the html-body setter. *)
Definition html_bodies (cs : list setter) : nat := length (List.filter is_html_body cs).

(** * Properties *)

(** ** Splitting an address at its separator *)

Section Split.
Variable sep : ascii.

Lemma split_length s : length (split sep s) = S (count_char sep s).
Proof.
  induction s as [|c s IH]; simpl; [done|].
  destruct (Ascii.eqb c sep); simpl; [by rewrite IH|].
  destruct (split sep s) as [|w ws]; simpl in *; [discriminate|done].
Qed.

Lemma split_no_sep s : count_char sep s = 0 -> split sep s = [s].
Proof.
  induction s as [|c s IH]; simpl; [done|].
  destruct (Ascii.eqb c sep); [discriminate|].
  intros H. by rewrite (IH H).
Qed.

Lemma split_at_first_sep s rest :
  count_char sep s = 0 -> split sep (s +:+ String sep rest) = s :: split sep rest.
Proof.
  induction s as [|c s IH]; simpl.
  - intros _. by rewrite Ascii.eqb_refl.
  - destruct (Ascii.eqb c sep); [discriminate|].
    intros H. by rewrite (IH H).
Qed.

Lemma split_local_domain local domain :
  count_char sep local = 0 -> count_char sep domain = 0 ->
  split sep (local +:+ String sep domain) = [local; domain].
Proof.
  intros Hl Hd. by rewrite (split_at_first_sep _ _ Hl), (split_no_sep _ Hd).
Qed.

Lemma unpack2_split_many s :
  1 < count_char sep s -> unpack2 (split sep s) = Raise ValueError.
Proof.
  intros H. pose proof (split_length s) as Hlen.
  destruct (split sep s) as [|a [|b [|c l]]]; simpl in *; (done || lia).
Qed.
End Split.

(** ** The sender domain and the endpoint *)

Lemma set_from_email_no_split p e :
  sender_domain p = PyNone ->
  unpack2 (split "@" (email e)) = Raise ValueError ->
  set_from_email e p = Ok (set_data "from" (PyStr (address e)) p).
Proof.
  intros Hp Hsplit. unfold set_from_email. simpl. rewrite Hp, Hsplit. done.
Qed.

Lemma set_from_email_from_field e p :
  exists p', set_from_email e p = Ok p' /\ data p' !! "from" = Some (PyStr (address e)).
Proof.
  unfold set_from_email. simpl.
  destruct (sender_domain p);
    try (eexists; split; [reflexivity|]; simpl; apply lookup_insert_eq).
  destruct (split "@" (email e)) as [|a [|b [|c l]]]; simpl;
    eexists; (split; [reflexivity|]); simpl; apply lookup_insert_eq.
Qed.

(** C5.  On a payload whose sender domain is unset, a from address
    [local@domain] sets the sender domain to [domain] and the endpoint to
    [domain/messages]; a from address without [@] leaves the sender domain
    unset, and the endpoint then fails with the configuration error that
    asks for a valid [from_email] or an [esp_extra] sender domain. *)
Theorem set_from_email_sender_domain (p : MailgunPayload) (e : ParsedEmail) :
  sender_domain p = PyNone ->
  (forall local domain,
      count_char "@" local = 0 -> count_char "@" domain = 0 ->
      email e = local +:+ "@" +:+ domain ->
      exists p', set_from_email e p = Ok p' /\
                 sender_domain p' = PyStr domain /\
                 get_api_endpoint p' = Ok (domain +:+ "/messages"))
  /\ (count_char "@" (email e) = 0 ->
      exists p', set_from_email e p = Ok p' /\
                 sender_domain p' = PyNone /\
                 get_api_endpoint p' = Raise (AnymailError unknown_sender_domain)).
Proof.
  intros Hp. split.
  - intros local domain Hl Hd He.
    unfold set_from_email. simpl. rewrite Hp, He.
    change ("@" +:+ domain) with (String "@" domain).
    rewrite (split_local_domain _ _ _ Hl Hd). simpl.
    eexists. split; [reflexivity|]. done.
  - intros H0. rewrite set_from_email_no_split; [|done|].
    + eexists. split; [reflexivity|]. unfold get_api_endpoint. simpl. by rewrite Hp.
    + by rewrite (split_no_sep _ _ H0).
Qed.

Lemma set_from_email_sender_domain_witness :
  (exists p', set_from_email {| address := "A <a@example.com>"; email := "a@example.com" |}
                init_payload = Ok p' /\
              sender_domain p' = PyStr "example.com" /\
              get_api_endpoint p' = Ok "example.com/messages")
  /\ (exists p', set_from_email {| address := "nobody"; email := "nobody" |}
                   init_payload = Ok p' /\
                 sender_domain p' = PyNone /\
                 get_api_endpoint p' = Raise (AnymailError unknown_sender_domain)).
Proof.
  split.
  - apply (proj1 (set_from_email_sender_domain init_payload
                    {| address := "A <a@example.com>"; email := "a@example.com" |}
                    eq_refl) "a" "example.com"); reflexivity.
  - apply (proj2 (set_from_email_sender_domain init_payload
                    {| address := "nobody"; email := "nobody" |} eq_refl)).
    reflexivity.
Defined.

(** C9.  On a payload whose sender domain is unset, a from address with
    more than one [@] leaves the sender domain unset and raises nothing: the
    only change is the [from] field, as for an address without [@]; and in
    every case the stringified address is stored under [from]. *)
Theorem set_from_email_many_at (p : MailgunPayload) (e : ParsedEmail) :
  sender_domain p = PyNone ->
  1 < count_char "@" (email e) ->
  set_from_email e p = Ok (set_data "from" (PyStr (address e)) p)
  /\ sender_domain (set_data "from" (PyStr (address e)) p) = PyNone
  /\ (forall e0 : ParsedEmail,
        count_char "@" (email e0) = 0 ->
        set_from_email e0 p = Ok (set_data "from" (PyStr (address e0)) p))
  /\ (forall (e0 : ParsedEmail) (p0 : MailgunPayload),
        exists p', set_from_email e0 p0 = Ok p' /\
                   data p' !! "from" = Some (PyStr (address e0))).
Proof.
  intros Hp Hmany. repeat split.
  - apply set_from_email_no_split; [done|]. by apply unpack2_split_many.
  - done.
  - intros e0 H0. apply set_from_email_no_split; [done|].
    by rewrite (split_no_sep _ _ H0).
  - intros e0 p0. apply set_from_email_from_field.
Qed.

Lemma set_from_email_many_at_witness :
  set_from_email {| address := "a@b@c.com"; email := "a@b@c.com" |} init_payload
  = Ok (set_data "from" (PyStr "a@b@c.com") init_payload).
Proof.
  refine (proj1 (set_from_email_many_at init_payload
                   {| address := "a@b@c.com"; email := "a@b@c.com" |} eq_refl _)).
  vm_compute. lia.
Defined.

(** ** The field [sender_domain] is never part of the data *)

Lemma set_from_email_data e p p' :
  set_from_email e p = Ok p' -> data p' = <["from" := PyStr (address e)]> (data p).
Proof.
  unfold set_from_email. simpl.
  destruct (sender_domain p); try (intros [= <-]; done).
  destruct (split "@" (email e)) as [|a [|b [|c l]]]; simpl; intros [= <-]; done.
Qed.

Lemma set_extra_headers_data headers : forall p k,
  (forall h, k <> "h:" +:+ h) ->
  data (foldl (fun p kv => set_data ("h:" +:+ kv.1) kv.2 p) p headers) !! k = data p !! k.
Proof.
  induction headers as [|[h x] headers IH]; intros p k Hk; simpl; [done|].
  rewrite IH by done. simpl. apply lookup_insert_ne. by intros <-; eapply Hk.
Qed.

Lemma set_metadata_other metadata : forall p p' k,
  set_metadata metadata p = Ok p' ->
  (forall key, key ∈ metadata.*1 -> k <> "v:" +:+ key) ->
  data p' !! k = data p !! k.
Proof.
  induction metadata as [|[key value] metadata IH]; intros p p' k; simpl.
  - by intros [= <-].
  - destruct (serialize_json value) as [json|]; simpl; [|done].
    intros Hrest Hk. rewrite (IH _ _ _ Hrest).
    + simpl. apply lookup_insert_ne. intros <-. eapply Hk; [|done].
      apply elem_of_cons. by left.
    + intros key' Hin. apply Hk. apply elem_of_cons. by right.
Qed.

Lemma set_metadata_frame metadata : forall p p',
  set_metadata metadata p = Ok p' ->
  sender_domain p' = sender_domain p /\ all_recipients p' = all_recipients p
  /\ files p' = files p /\ unsupported p' = unsupported p.
Proof.
  induction metadata as [|[key value] metadata IH]; intros p p'; simpl.
  - by intros [= <-].
  - destruct (serialize_json value) as [json|]; simpl; [|done].
    intros Hrest. by destruct (IH _ _ Hrest) as (-> & -> & -> & ->).
Qed.

Lemma call_no_sender_domain c p p' :
  data p !! "sender_domain" = None -> call c p = Ok p' ->
  data p' !! "sender_domain" = None.
Proof.
  intros Hp. destruct c; simpl.
  - intros H. rewrite (set_from_email_data _ _ _ H). by rewrite lookup_insert_ne.
  - unfold set_recipients. case_bool_decide as Ht; [|done].
    destruct emails; intros [= <-]; [done|]. simpl.
    rewrite lookup_insert_ne; [done|]. intros ->.
    repeat (apply elem_of_cons in Ht as [Ht|Ht]; [discriminate|]).
    by apply elem_of_nil in Ht.
  - intros [= <-]. simpl. by rewrite lookup_insert_ne.
  - unfold set_reply_to. destruct emails; intros [= <-]; [done|]. simpl.
    by rewrite lookup_insert_ne.
  - intros [= <-]. by rewrite set_extra_headers_data.
  - intros [= <-]. simpl. by rewrite lookup_insert_ne.
  - unfold set_html_body. case_bool_decide; simpl; intros [= <-]; simpl;
      by rewrite lookup_insert_ne.
  - intros [= <-]. done.
  - intros H. by rewrite (set_metadata_other _ _ _ _ H).
  - intros [= <-]. simpl. by rewrite lookup_insert_ne.
  - intros [= <-]. simpl. by rewrite lookup_insert_ne.
  - intros [= <-]. simpl. by rewrite lookup_insert_ne.
  - intros [= <-]. simpl. by rewrite lookup_insert_ne.
  - intros [= <-]. simpl. apply lookup_delete_eq.
Qed.

Lemma calls_no_sender_domain cs : forall p p',
  data p !! "sender_domain" = None -> calls cs p = Ok p' ->
  data p' !! "sender_domain" = None.
Proof.
  induction cs as [|c cs IH]; intros p p' Hp; simpl.
  - by intros [= <-].
  - destruct (call c p) as [q|] eqn:Hc; simpl; [|done].
    apply IH. by eapply call_no_sender_domain.
Qed.

(** ** Provider-specific overrides *)

Lemma set_esp_extra_merge p extra :
  exists p', set_esp_extra extra p = Ok p'
    /\ sender_domain p' = default (sender_domain p) ((extra ∪ data p) !! "sender_domain")
    /\ data p' = delete "sender_domain" (extra ∪ data p).
Proof. eexists. split; [reflexivity|]. done. Qed.

(** C6.  The esp_extra setter with a mapping that holds [sender_domain]
    overwrites the sender domain with that value, whatever the from setter
    had found, so that the endpoint is the value followed by [/messages];
    every other key of the mapping ends up in the data with the mapping's
    value, keys outside the mapping keep theirs, and the field
    [sender_domain] is not in the data, nor after any further setter calls. *)
Theorem set_esp_extra_sender_domain (p : MailgunPayload) (extra : gmap string pyval)
    (v : pyval) :
  extra !! "sender_domain" = Some v ->
  exists p', set_esp_extra extra p = Ok p'
    /\ sender_domain p' = v
    /\ (v <> PyNone -> get_api_endpoint p' = Ok (py_str v +:+ "/messages"))
    /\ (forall k x, k <> "sender_domain" -> extra !! k = Some x -> data p' !! k = Some x)
    /\ (forall k, k <> "sender_domain" -> extra !! k = None -> data p' !! k = data p !! k)
    /\ data p' !! "sender_domain" = None
    /\ (forall cs q, calls cs p' = Ok q -> data q !! "sender_domain" = None).
Proof.
  intros Hv. destruct (set_esp_extra_merge p extra) as (p' & Hp' & Hsd & Hdata).
  exists p'. rewrite (lookup_union_Some_l _ _ _ _ Hv) in Hsd. simpl in Hsd.
  repeat split; try done.
  - intros Hnone. unfold get_api_endpoint. rewrite Hsd. by destruct v.
  - intros k x Hk Hx. rewrite Hdata, lookup_delete_ne by done.
    by apply lookup_union_Some_l.
  - intros k Hk Hx. rewrite Hdata, lookup_delete_ne by done.
    by apply lookup_union_r.
  - rewrite Hdata. apply lookup_delete_eq.
  - intros cs q. apply calls_no_sender_domain. rewrite Hdata. apply lookup_delete_eq.
Qed.

Lemma set_esp_extra_sender_domain_witness :
  set_from_email a_example init_payload = Ok from_a_example
  /\ exists p', set_esp_extra override_extra from_a_example = Ok p'
       /\ get_api_endpoint p' = Ok "override.com/messages"
       /\ data p' !! "sender_domain" = None.
Proof.
  split; [reflexivity|].
  destruct (set_esp_extra_sender_domain from_a_example override_extra
              (PyStr "override.com") eq_refl)
    as (p' & Hp' & _ & Hep & _ & _ & Hnone & _).
  exists p'. split; [exact Hp'|]. split; [|exact Hnone].
  apply Hep. discriminate.
Defined.

(** C10.  On a payload built by the setters, the esp_extra setter with a
    mapping that has no [sender_domain] key leaves the sender domain as it
    was, and every entry of the mapping is in the data afterwards; the other
    fields of the data are unchanged. *)
Theorem set_esp_extra_without_sender_domain (cs : list setter) (p : MailgunPayload)
    (extra : gmap string pyval) :
  calls cs init_payload = Ok p ->
  extra !! "sender_domain" = None ->
  exists p', set_esp_extra extra p = Ok p'
    /\ sender_domain p' = sender_domain p
    /\ (forall k x, extra !! k = Some x -> data p' !! k = Some x)
    /\ (forall k, extra !! k = None -> data p' !! k = data p !! k).
Proof.
  intros Hcs Hextra.
  assert (data p !! "sender_domain" = None) as Hinv
    by (by eapply calls_no_sender_domain; [|exact Hcs]).
  destruct (set_esp_extra_merge p extra) as (p' & Hp' & Hsd & Hdata).
  exists p'. split; [done|]. split; [|split].
  - rewrite Hsd. by rewrite lookup_union_r, Hinv.
  - intros k x Hx. rewrite Hdata, lookup_delete_ne by congruence.
    by apply lookup_union_Some_l.
  - intros k Hk. rewrite Hdata. destruct (decide (k = "sender_domain")) as [->|Hne].
    + by rewrite lookup_delete_eq, Hinv.
    + rewrite lookup_delete_ne by done. by apply lookup_union_r.
Qed.

Lemma set_esp_extra_without_sender_domain_witness :
  exists p', set_esp_extra testmode_extra from_a_example = Ok p'
    /\ sender_domain p' = PyStr "example.com"
    /\ data p' !! "o:testmode" = Some (PyStr "yes")
    /\ data p' !! "from" = Some (PyStr "a@example.com").
Proof.
  destruct (set_esp_extra_without_sender_domain [SetFromEmail a_example] from_a_example
              testmode_extra eq_refl eq_refl)
    as (p' & Hp' & Hsd & Hin & Hout).
  exists p'. split; [exact Hp'|]. split; [exact Hsd|]. split.
  - apply Hin. reflexivity.
  - rewrite Hout; reflexivity.
Defined.

(** ** A second html body *)

(** C3, as the code has it.  When an html body is already stored, the
    html-body setter records the notice [multiple html parts], raises
    nothing, and stores the new body under [html] in place of the first;
    the other fields of the data are unchanged. *)
Theorem set_html_body_again (p : MailgunPayload) (first second : pyval) :
  data p !! "html" = Some first ->
  exists p', set_html_body second p = Ok p'
    /\ unsupported p' = (unsupported p ++ ["multiple html parts"])%list
    /\ data p' !! "html" = Some second
    /\ (forall k, k <> "html" -> data p' !! k = data p !! k).
Proof.
  intros Hfirst. unfold set_html_body.
  rewrite bool_decide_eq_true_2 by (by rewrite Hfirst). simpl.
  eexists. split; [reflexivity|]. simpl. repeat split.
  - apply lookup_insert_eq.
  - intros k Hk. by apply lookup_insert_ne.
Qed.

Lemma set_html_body_again_witness :
  exists p', set_html_body second_html (set_data "html" first_html init_payload) = Ok p'
    /\ unsupported p' = ["multiple html parts"]
    /\ data p' !! "html" = Some second_html.
Proof.
  destruct (set_html_body_again (set_data "html" first_html init_payload)
              first_html second_html eq_refl) as (p' & Hp' & Hu & Hd & _).
  exists p'. split; [exact Hp'|]. split; [exact Hu|exact Hd].
Defined.

(** C3 as the spec words it fails: after two calls the [html] field holds
    the second body, not the first. *)
Lemma set_html_body_twice_counterexample :
  exists p1 p2,
    set_html_body first_html init_payload = Ok p1
    /\ data p1 !! "html" = Some first_html
    /\ set_html_body second_html p1 = Ok p2
    /\ unsupported p2 = ["multiple html parts"]
    /\ data p2 !! "html" = Some second_html
    /\ data p2 !! "html" <> Some first_html.
Proof.
  eexists _, _. split; [reflexivity|]. split; [reflexivity|].
  split; [reflexivity|]. split; [reflexivity|]. split; [reflexivity|].
  vm_compute. discriminate.
Qed.

(** ** Metadata *)

Lemma str_of_Z_startswith_quote n : startswith (str_of_Z n) (String dquote "") = false.
Proof.
  unfold str_of_Z. destruct (Z.to_int n) as [d|d]; [|done].
  by destruct d.
Qed.

Lemma startswith_first c s t : startswith (String c s +:+ t) (String c "") = true.
Proof.
  unfold startswith. change (String c s +:+ t) with (String c (s +:+ t)). simpl.
  destruct (ascii_dec c c); [|done]. by destruct (s +:+ t).
Qed.

(** Only a string is serialized to a text that starts with a quote. *)
Lemma json_dumps_startswith_quote v text :
  json_dumps v = Some text ->
  startswith text (String dquote "") = match v with PyStr _ => true | _ => false end.
Proof.
  destruct v as [|b|n|s|items|items|? ?]; simpl; try (intros [= <-]; done).
  - destruct b; intros [= <-]; done.
  - intros [= <-]. apply str_of_Z_startswith_quote.
  - intros [= <-]. apply startswith_first.
  - destruct (mapM json_dumps items); simpl; intros [= <-]; done.
  - match goal with |- context [mapM ?f items] => destruct (mapM f items) end;
      simpl; intros [= <-]; done.
Qed.

(** What [set_metadata] stores for a value whose JSON text is [json]. *)
Lemma set_metadata_cons key value json metadata p :
  json_dumps value = Some json ->
  set_metadata ((key, value) :: metadata) p
  = set_metadata metadata
      (set_data ("v:" +:+ key) (match value with PyStr s => PyStr s | _ => PyStr json end) p).
Proof.
  intros Hjson. simpl. unfold serialize_json. rewrite Hjson. simpl.
  rewrite (json_dumps_startswith_quote _ _ Hjson). by destruct value.
Qed.

Lemma set_metadata_serializable metadata : forall p,
  NoDup metadata.*1 ->
  Forall (fun kv => is_Some (json_dumps kv.2)) metadata ->
  exists p', set_metadata metadata p = Ok p'
    /\ forall key value, (key, value) ∈ metadata ->
         exists json, json_dumps value = Some json
           /\ data p' !! ("v:" +:+ key)
              = Some (match value with PyStr s => PyStr s | _ => PyStr json end).
Proof.
  induction metadata as [|[key value] metadata IH]; intros p Hdup Hall.
  - exists p. split; [done|]. intros key value Hin. by apply elem_of_nil in Hin.
  - rewrite fmap_cons in Hdup. apply NoDup_cons in Hdup as [Hfresh Hdup].
    apply Forall_cons in Hall as [[json Hjson] Hall]. simpl in Hjson.
    rewrite (set_metadata_cons _ _ _ _ _ Hjson).
    destruct (IH (set_data ("v:" +:+ key)
                    (match value with PyStr s => PyStr s | _ => PyStr json end) p)
                 Hdup Hall) as (p' & Hp' & Hfields).
    exists p'. split; [done|]. intros key' value' Hin.
    apply elem_of_cons in Hin as [[= -> ->]|Hin]; [|by apply Hfields].
    exists json. split; [done|].
    rewrite (set_metadata_other _ _ _ ("v:" +:+ key) Hp').
    + simpl. apply lookup_insert_eq.
    + intros key' Hin Heq. apply (inj (String.app "v:")) in Heq as ->.
      by apply Hfresh.
Qed.

Lemma set_metadata_unserializable metadata : forall p,
  Exists (fun kv => json_dumps kv.2 = None) metadata ->
  set_metadata metadata p = Raise AnymailSerializationError.
Proof.
  induction metadata as [|[key value] metadata IH]; intros p Hex.
  - by apply Exists_nil in Hex.
  - destruct (json_dumps value) as [json|] eqn:Hjson.
    + rewrite (set_metadata_cons _ _ _ _ _ Hjson). apply IH.
      apply Exists_cons in Hex as [Hhead|Htail]; [|done]. simpl in Hhead. congruence.
    + simpl. unfold serialize_json. by rewrite Hjson.
Qed.

(** C7.  For a metadata mapping whose values all have a JSON text, the
    metadata setter stores each value under [v:<key>]: a string as it is,
    without quotes, any other value as its JSON text.  When some value has
    no JSON text the setter raises the serialization error, so that no
    payload is built. *)
Theorem set_metadata_fields (metadata : list (string * pyval)) (p : MailgunPayload) :
  NoDup metadata.*1 ->
  (Forall (fun kv => is_Some (json_dumps kv.2)) metadata ->
   exists p', set_metadata metadata p = Ok p'
     /\ forall key value, (key, value) ∈ metadata ->
          exists json, json_dumps value = Some json
            /\ data p' !! ("v:" +:+ key)
               = Some (match value with PyStr s => PyStr s | _ => PyStr json end))
  /\ (Exists (fun kv => json_dumps kv.2 = None) metadata ->
      set_metadata metadata p = Raise AnymailSerializationError).
Proof.
  intros Hdup. split.
  - by apply set_metadata_serializable.
  - apply set_metadata_unserializable.
Qed.

Lemma set_metadata_fields_witness :
  (exists p', set_metadata example_metadata init_payload = Ok p'
     /\ data p' !! "v:greeting" = Some (PyStr "hello")
     /\ data p' !! "v:count" = Some (PyStr "42")
     /\ data p' !! "v:nested"
        = Some (PyStr ("{" +:+ String dquote "a" +:+ String dquote ":1}")))
  /\ set_metadata bad_metadata init_payload = Raise AnymailSerializationError.
Proof.
  assert (NoDup example_metadata.*1) as Hdup
    by compute_done.
  assert (Forall (fun kv => is_Some (json_dumps kv.2)) example_metadata) as Hall
    by (repeat constructor; eexists; reflexivity).
  assert (NoDup bad_metadata.*1) as Hdup'
    by compute_done.
  split.
  - destruct (proj1 (set_metadata_fields example_metadata init_payload Hdup) Hall)
      as (p' & Hp' & Hfields).
    exists p'. split; [exact Hp'|].
    vm_compute in Hp'. injection Hp' as <-. repeat split; reflexivity.
  - apply (proj2 (set_metadata_fields bad_metadata init_payload Hdup')).
    apply Exists_cons. right. apply Exists_cons. left. reflexivity.
Defined.

(** ** Recipients *)

Lemma set_recipients_valid t emails p :
  t ∈ ["to"; "cc"; "bcc"] ->
  exists p', set_recipients t emails p = Ok p'
    /\ all_recipients p' = (all_recipients p ++ emails)%list
    /\ (emails <> [] -> data p' !! t = Some (stringified emails))
    /\ (forall k, k <> t -> data p' !! k = data p !! k).
Proof.
  intros Ht. unfold set_recipients. rewrite bool_decide_eq_true_2 by done.
  destruct emails as [|e emails].
  - exists p. by rewrite app_nil_r.
  - eexists. split; [reflexivity|]. simpl. repeat split.
    + intros _. apply lookup_insert_eq.
    + intros k Hk. by apply lookup_insert_ne.
Qed.

Lemma recipient_calls_spec l : forall p,
  Forall (fun c => c.1 ∈ ["to"; "cc"; "bcc"]) l ->
  exists p', calls (recipient_calls l) p = Ok p'
    /\ all_recipients p' = (all_recipients p ++ concat l.*2)%list
    /\ (forall k, k ∉ l.*1 -> data p' !! k = data p !! k)
    /\ (NoDup l.*1 ->
        forall t emails, (t, emails) ∈ l -> emails <> [] ->
          data p' !! t = Some (stringified emails)).
Proof.
  induction l as [|[t emails] l IH]; intros p Hvalid.
  - exists p. split; [done|]. split; [by rewrite app_nil_r|]. split; [done|].
    intros _ t emails Hin. by apply elem_of_nil in Hin.
  - apply Forall_cons in Hvalid as [Ht Hvalid]. simpl in Ht.
    destruct (set_recipients_valid t emails p Ht) as (p1 & Hp1 & Hall1 & Hfield1 & Hframe1).
    destruct (IH p1 Hvalid) as (p' & Hp' & Hall & Hframe & Hfields).
    exists p'. split; [|split; [|split]].
    + simpl. rewrite Hp1. exact Hp'.
    + rewrite Hall, Hall1. simpl. by rewrite app_assoc.
    + intros k Hk. rewrite fmap_cons in Hk. apply not_elem_of_cons in Hk as [Hne Hk].
      rewrite (Hframe k Hk). by apply Hframe1.
    + intros Hdup t' emails' Hin Hne. rewrite fmap_cons in Hdup.
      apply NoDup_cons in Hdup as [Hfresh Hdup].
      apply elem_of_cons in Hin as [[= -> ->]|Hin].
      * rewrite (Hframe t Hfresh). by apply Hfield1.
      * by apply Hfields.
Qed.

(** C8.  For every sequence of calls of the recipient setter with the
    types [to], [cc] and [bcc], the calls succeed and [all_recipients] grows
    by exactly the addresses passed, in the order of the calls: from a
    payload without recipients it is a permutation of all the addresses
    passed.  When each type is set once, every non-empty list is stored
    stringified under the field of its type. *)
Theorem set_recipients_all_recipients (l : list (string * list ParsedEmail))
    (p : MailgunPayload) :
  Forall (fun c => c.1 ∈ ["to"; "cc"; "bcc"]) l ->
  exists p', calls (recipient_calls l) p = Ok p'
    /\ all_recipients p' = (all_recipients p ++ concat l.*2)%list
    /\ (all_recipients p = [] -> all_recipients p' ≡ₚ concat l.*2)
    /\ (NoDup l.*1 ->
        forall t emails, (t, emails) ∈ l -> emails <> [] ->
          data p' !! t = Some (stringified emails)).
Proof.
  intros Hvalid.
  destruct (recipient_calls_spec l p Hvalid) as (p' & Hp' & Hall & _ & Hfields).
  exists p'. repeat split; try done.
  intros Hnil. by rewrite Hall, Hnil.
Qed.

Lemma set_recipients_all_recipients_witness :
  exists p', calls (recipient_calls example_recipients) init_payload = Ok p'
    /\ all_recipients p' = [a_x; b_x; c_y; a_x]
    /\ data p' !! "to" = Some (PyList [PyStr "a@x.com"; PyStr "B <b@x.com>"])
    /\ data p' !! "cc" = Some (PyList [PyStr "c@y.org"])
    /\ data p' !! "bcc" = Some (PyList [PyStr "a@x.com"]).
Proof.
  assert (Forall (fun c => c.1 ∈ ["to"; "cc"; "bcc"]) example_recipients) as Hvalid
    by compute_done.
  assert (NoDup example_recipients.*1) as Hdup by compute_done.
  destruct (set_recipients_all_recipients example_recipients init_payload Hvalid)
    as (p' & Hp' & Hall & _ & Hfields).
  exists p'. split; [exact Hp'|]. split; [exact Hall|].
  vm_compute in Hp'. injection Hp' as <-. repeat split; reflexivity.
Defined.

(** ** Parsing the response *)

(** The dictionary comprehension over [all_recipients]. *)
Lemma statuses_lookup (st : AnymailRecipientStatus) (recipients : list ParsedEmail) :
  forall (statuses : gmap string AnymailRecipientStatus) (k : string),
    foldl (fun statuses recipient => <[email recipient := st]> statuses)
          statuses recipients !! k
    = if decide (k ∈ email <$> recipients) then Some st else statuses !! k.
Proof.
  induction recipients as [|r recipients IH]; intros statuses k.
  - rewrite decide_False; [done|]. apply not_elem_of_nil.
  - cbn [foldl]. rewrite IH, fmap_cons.
    destruct (decide (k ∈ email <$> recipients)) as [Hin|Hin].
    + rewrite decide_True; [done|]. apply elem_of_cons. by right.
    + destruct (decide (k = email r)) as [->|Hne].
      * rewrite lookup_insert_eq, decide_True; [done|]. apply elem_of_cons. by left.
      * rewrite lookup_insert_ne by done. rewrite decide_False; [done|].
        intros [?|?]%elem_of_cons; done.
Qed.

Section BackendProperties.
Context {Response : Type}.
Variable deserialize_json_response : Response -> result pyval.

Lemma parse_recipient_status_items response payload items message_id mailgun_message :
  deserialize_json_response response = Ok (PyDict items) ->
  dict_get "id" items = Some message_id ->
  dict_get "message" items = Some mailgun_message ->
  parse_recipient_status deserialize_json_response response payload
  = (queued ← py_startswith mailgun_message "Queued";
     if negb queued then Raise (unrecognized_message mailgun_message)
     else Ok (foldl (fun statuses recipient =>
                       <[email recipient := {| message_id := message_id;
                                               status := "queued" |}]> statuses)
                    ∅ (all_recipients payload))).
Proof.
  intros Hresponse Hid Hmessage. unfold parse_recipient_status.
  rewrite Hresponse. simpl. by rewrite Hid, Hmessage.
Qed.

(** C1.  When the body decodes to an object whose [message] is a string
    that starts with [Queued], the result is a mapping that holds, at the
    plain email of every address of [all_recipients], the status [queued]
    with the [id] of the response as message id, and holds nothing else. *)
Theorem parse_recipient_status_queued (response : Response) (payload : MailgunPayload)
    (items : list (string * pyval)) (message_id : pyval) (mailgun_message : string) :
  deserialize_json_response response = Ok (PyDict items) ->
  dict_get "id" items = Some message_id ->
  dict_get "message" items = Some (PyStr mailgun_message) ->
  startswith mailgun_message "Queued" = true ->
  exists statuses,
    parse_recipient_status deserialize_json_response response payload = Ok statuses
    /\ (forall recipient, recipient ∈ all_recipients payload ->
          statuses !! email recipient
          = Some {| message_id := message_id; status := "queued" |})
    /\ (forall k st, statuses !! k = Some st ->
          st = {| message_id := message_id; status := "queued" |}
          /\ exists recipient, recipient ∈ all_recipients payload /\ email recipient = k).
Proof.
  intros Hresponse Hid Hmessage Hqueued.
  rewrite (parse_recipient_status_items _ _ _ _ _ Hresponse Hid Hmessage).
  simpl. rewrite Hqueued. simpl. eexists. split; [reflexivity|]. split.
  - intros recipient Hin. rewrite statuses_lookup, decide_True; [done|].
    by apply list_elem_of_fmap_2.
  - intros k st. rewrite statuses_lookup. case_decide as Hin; [|done].
    intros [= <-]. split; [done|].
    apply list_elem_of_fmap in Hin as (recipient & -> & Hin). by exists recipient.
Qed.

(** C2.  When the body decodes to an object with an [id] and a [message]
    string that does not start with [Queued], parsing raises the API error
    for an unrecognized message, and so returns no mapping. *)
Theorem parse_recipient_status_unrecognized (response : Response)
    (payload : MailgunPayload) (items : list (string * pyval)) (message_id : pyval)
    (mailgun_message : string) :
  deserialize_json_response response = Ok (PyDict items) ->
  dict_get "id" items = Some message_id ->
  dict_get "message" items = Some (PyStr mailgun_message) ->
  startswith mailgun_message "Queued" = false ->
  parse_recipient_status deserialize_json_response response payload
  = Raise (AnymailRequestsAPIError
             ("Unrecognized Mailgun API message '" +:+ mailgun_message +:+ "'")).
Proof.
  intros Hresponse Hid Hmessage Hqueued.
  rewrite (parse_recipient_status_items _ _ _ _ _ Hresponse Hid Hmessage).
  simpl. by rewrite Hqueued.
Qed.

(** C4, as the code has it.  When the body decodes to a value that is not
    an object, or to an object without the key [id] or without the key
    [message], parsing raises the API error for an invalid response
    format. *)
Theorem parse_recipient_status_invalid_format (response : Response)
    (payload : MailgunPayload) (parsed_response : pyval) :
  deserialize_json_response response = Ok parsed_response ->
  (forall items, parsed_response = PyDict items ->
                 dict_get "id" items = None \/ dict_get "message" items = None) ->
  parse_recipient_status deserialize_json_response response payload
  = Raise invalid_response_format.
Proof.
  intros Hresponse Hmissing. unfold parse_recipient_status.
  rewrite Hresponse. simpl.
  destruct parsed_response as [|b|n|s|l|items|? ?]; try done.
  simpl. destruct (Hmissing items eq_refl) as [Hid|Hmessage].
  - by rewrite Hid.
  - rewrite Hmessage. by destruct (dict_get "id" items).
Qed.
End BackendProperties.

Lemma parse_recipient_status_queued_witness :
  exists statuses, parse_recipient_status decode queued_response to_a_b = Ok statuses
    /\ statuses !! "a@x.com" = Some {| message_id := PyStr "MSG123"; status := "queued" |}
    /\ statuses !! "b@x.com" = Some {| message_id := PyStr "MSG123"; status := "queued" |}
    /\ dom statuses = {[ "a@x.com"; "b@x.com" ]}.
Proof.
  destruct (parse_recipient_status_queued decode queued_response to_a_b
              [("id", PyStr "MSG123"); ("message", PyStr "Queued. Thank you.")]
              (PyStr "MSG123") "Queued. Thank you." eq_refl eq_refl eq_refl eq_refl)
    as (statuses & Hparse & Hin & _).
  exists statuses. split; [exact Hparse|]. split; [|split].
  - apply (Hin a_x). apply elem_of_cons. by left.
  - apply (Hin b_x). apply elem_of_cons. right. apply elem_of_cons. by left.
  - vm_compute in Hparse. injection Hparse as <-. reflexivity.
Defined.

Lemma parse_recipient_status_unrecognized_witness :
  parse_recipient_status decode rejected_response to_a_b
  = Raise (AnymailRequestsAPIError "Unrecognized Mailgun API message 'Rejected'").
Proof.
  apply (parse_recipient_status_unrecognized decode rejected_response to_a_b
           [("id", PyStr "MSG123"); ("message", PyStr "Rejected")]
           (PyStr "MSG123") "Rejected" eq_refl eq_refl eq_refl eq_refl).
Defined.

Lemma parse_recipient_status_invalid_format_witness :
  parse_recipient_status decode missing_id_response to_a_b = Raise invalid_response_format
  /\ parse_recipient_status decode (Some (PyList [PyStr "id"; PyStr "message"])) to_a_b
     = Raise invalid_response_format.
Proof.
  split.
  - apply (parse_recipient_status_invalid_format decode missing_id_response to_a_b
             (PyDict [("message", PyStr "Queued. Thank you.")]) eq_refl).
    intros items [= <-]. left. reflexivity.
  - apply (parse_recipient_status_invalid_format decode
             (Some (PyList [PyStr "id"; PyStr "message"])) to_a_b
             (PyList [PyStr "id"; PyStr "message"]) eq_refl).
    intros items Heq. discriminate Heq.
Defined.

(** C4 as the spec words it fails: an [id] that is not a string is not
    refused, it becomes the message id of every recipient. *)
Lemma parse_recipient_status_id_type_counterexample :
  dict_get "id" [("id", PyInt 42); ("message", PyStr "Queued. Thank you.")] = Some (PyInt 42)
  /\ parse_recipient_status decode numeric_id_response to_a_b
     = Ok {[ "a@x.com" := {| message_id := PyInt 42; status := "queued" |};
             "b@x.com" := {| message_id := PyInt 42; status := "queued" |} ]}
  /\ parse_recipient_status decode numeric_id_response to_a_b
     <> Raise invalid_response_format.
Proof.
  split; [reflexivity|]. split; [vm_compute; reflexivity|]. vm_compute. discriminate.
Qed.

(** A [message] that is not a string has no [startswith]: the
    [AttributeError] is not among the exceptions the [except] clause names. *)
Example parse_recipient_status_message_type :
  parse_recipient_status decode
    (Some (PyDict [("id", PyStr "MSG123"); ("message", PyInt 7)])) to_a_b
  = Raise AttributeError.
Proof. reflexivity. Qed.

(** * Further properties of the backend *)

(** ** The api url *)

Lemma endswith_app s suf : endswith (s +:+ suf) suf = true.
Proof.
  induction s as [|c s IH].
  - change ("" +:+ suf) with suf.
    destruct suf; [done|]. cbn [endswith]. by rewrite String.eqb_refl.
  - change (String c s +:+ suf) with (String c (s +:+ suf)).
    cbn [endswith]. rewrite IH. apply orb_true_r.
Qed.

(** X1.  The api url of the backend always ends with a slash: a setting that
    ends with one is kept as it is, so that normalizing twice changes
    nothing, and without a setting the url is the default followed by a
    slash. *)
Theorem init_api_url_slash (setting : option string) :
  endswith (init_api_url setting) "/" = true
  /\ init_api_url (Some (init_api_url setting)) = init_api_url setting
  /\ (forall url, endswith url "/" = true -> init_api_url (Some url) = url)
  /\ (forall url, endswith url "/" = false -> init_api_url (Some url) = url +:+ "/")
  /\ init_api_url None = "https://api.mailgun.net/v3/".
Proof.
  assert (forall url, endswith url "/" = true -> init_api_url (Some url) = url) as Hkeep.
  { intros url Hurl. unfold init_api_url. simpl. by rewrite Hurl. }
  assert (endswith (init_api_url setting) "/" = true) as Hslash.
  { unfold init_api_url. destruct (endswith (default default_api_url setting) "/") eqn:He;
      simpl; [done|]. apply endswith_app. }
  split; [done|]. split; [by apply Hkeep|]. split; [done|]. split; [|done].
  intros url Hurl. unfold init_api_url. simpl. by rewrite Hurl.
Qed.

(** ** The sender domain across setters *)

Lemma set_from_email_keeps_sender_domain p e :
  sender_domain p <> PyNone ->
  set_from_email e p = Ok (set_data "from" (PyStr (address e)) p).
Proof.
  intros Hset. unfold set_from_email. simpl. by destruct (sender_domain p).
Qed.

(** X2.  An [esp_extra] sender domain wins over the from address in both
    orders of the two setters: the from setter does not replace a sender
    domain that is set, and the esp_extra setter replaces any. *)
Theorem sender_domain_override_order (p : MailgunPayload) (e : ParsedEmail)
    (extra : gmap string pyval) (v : pyval) :
  extra !! "sender_domain" = Some v ->
  v <> PyNone ->
  (exists p1 p2, set_esp_extra extra p = Ok p1 /\ set_from_email e p1 = Ok p2
                 /\ sender_domain p2 = v)
  /\ (exists p1 p2, set_from_email e p = Ok p1 /\ set_esp_extra extra p1 = Ok p2
                    /\ sender_domain p2 = v).
Proof.
  intros Hv Hnone. split.
  - destruct (set_esp_extra_merge p extra) as (p1 & Hp1 & Hsd & _).
    rewrite (lookup_union_Some_l _ _ _ _ Hv) in Hsd. simpl in Hsd.
    exists p1, (set_data "from" (PyStr (address e)) p1). split; [done|]. split; [|done].
    apply set_from_email_keeps_sender_domain. by rewrite Hsd.
  - destruct (set_from_email_from_field e p) as (p1 & Hp1 & _).
    destruct (set_esp_extra_merge p1 extra) as (p2 & Hp2 & Hsd & _).
    rewrite (lookup_union_Some_l _ _ _ _ Hv) in Hsd. by exists p1, p2.
Qed.

Lemma sender_domain_override_order_witness :
  (exists p1 p2, set_esp_extra override_extra init_payload = Ok p1
                 /\ set_from_email a_example p1 = Ok p2
                 /\ sender_domain p2 = PyStr "override.com")
  /\ (exists p1 p2, set_from_email a_example init_payload = Ok p1
                    /\ set_esp_extra override_extra p1 = Ok p2
                    /\ sender_domain p2 = PyStr "override.com").
Proof.
  apply (sender_domain_override_order init_payload a_example override_extra
           (PyStr "override.com") eq_refl).
  discriminate.
Defined.

(** ** Recipient types and empty lists *)

(** X3.  The recipient setter refuses any type other than [to], [cc] and [bcc]
    with an [AssertionError], whatever the addresses; with one of the three
    types and no address it changes nothing, so a list stored before stays. *)
Theorem set_recipients_type (t : string) (emails : list ParsedEmail) (p : MailgunPayload) :
  (t ∉ ["to"; "cc"; "bcc"] -> set_recipients t emails p = Raise AssertionError)
  /\ (t ∈ ["to"; "cc"; "bcc"] -> set_recipients t [] p = Ok p)
  /\ ((exists p', set_recipients t emails p = Ok p') <-> t ∈ ["to"; "cc"; "bcc"]).
Proof.
  unfold set_recipients. split; [|split].
  - intros Ht. by rewrite bool_decide_eq_false_2.
  - intros Ht. by rewrite bool_decide_eq_true_2.
  - case_bool_decide as Ht; split; try done.
    + intros _. destruct emails; eauto.
    + by intros [p' ?].
Qed.

(** ** Reply-To *)

(** X4.  The reply-to setter and an extra header [Reply-To] write the same
    field [h:Reply-To]: whichever is called last decides its value.  With no
    address the reply-to setter changes nothing. *)
Theorem reply_to_header_field (emails : list ParsedEmail) (v : pyval) (p : MailgunPayload) :
  emails <> [] ->
  (exists p1 p2, set_reply_to emails p = Ok p1
                 /\ set_extra_headers (reply_to_header v) p1 = Ok p2
                 /\ data p2 !! "h:Reply-To" = Some v)
  /\ (exists p1 p2, set_extra_headers (reply_to_header v) p = Ok p1
                    /\ set_reply_to emails p1 = Ok p2
                    /\ data p2 !! "h:Reply-To"
                       = Some (PyStr (join ", " (map address emails))))
  /\ set_reply_to [] p = Ok p.
Proof.
  intros Hne. destruct emails as [|e emails]; [done|]. split; [|split; [|done]].
  - eexists _, _. split; [reflexivity|]. split; [reflexivity|].
    simpl. apply lookup_insert_eq.
  - eexists _, _. split; [reflexivity|]. split; [reflexivity|].
    simpl. apply lookup_insert_eq.
Qed.

Lemma reply_to_header_field_witness :
  exists p1 p2, set_extra_headers (reply_to_header (PyStr "x@y.org")) init_payload = Ok p1
                /\ set_reply_to [a_x; b_x] p1 = Ok p2
                /\ data p2 !! "h:Reply-To" = Some (PyStr "a@x.com, B <b@x.com>").
Proof.
  apply (reply_to_header_field [a_x; b_x] (PyStr "x@y.org") init_payload).
  discriminate.
Defined.

(** ** What each setter leaves alone *)

Lemma set_from_email_frame e p p' :
  set_from_email e p = Ok p' ->
  all_recipients p' = all_recipients p /\ files p' = files p
  /\ unsupported p' = unsupported p.
Proof.
  unfold set_from_email. simpl.
  destruct (sender_domain p); try (intros [= <-]; done).
  destruct (split "@" (email e)) as [|a [|b [|c l]]]; simpl; intros [= <-]; done.
Qed.

Lemma set_extra_headers_frame headers : forall p,
  let p' := foldl (fun p kv => set_data ("h:" +:+ kv.1) kv.2 p) p headers in
  sender_domain p' = sender_domain p /\ all_recipients p' = all_recipients p
  /\ files p' = files p /\ unsupported p' = unsupported p.
Proof.
  induction headers as [|[h x] headers IH]; intros p; simpl; [done|].
  by destruct (IH (set_data ("h:" +:+ h) x p)) as (-> & -> & -> & ->).
Qed.

Lemma call_frame c p p' :
  call c p = Ok p' ->
  all_recipients p' = (all_recipients p ++ recipients_of c)%list
  /\ files p' = (files p ++ parts_of c)%list
  /\ (sets_sender_domain c = false -> sender_domain p' = sender_domain p).
Proof.
  destruct c; simpl.
  - intros H. destruct (set_from_email_frame _ _ _ H) as (-> & -> & _).
    by rewrite !app_nil_r.
  - unfold set_recipients. case_bool_decide; [|done].
    destruct emails; intros [= <-]; simpl; by rewrite !app_nil_r.
  - intros [= <-]. simpl. by rewrite !app_nil_r.
  - unfold set_reply_to. destruct emails; intros [= <-]; simpl; by rewrite !app_nil_r.
  - intros [= <-]. destruct (set_extra_headers_frame headers p) as (-> & -> & -> & _).
    by rewrite !app_nil_r.
  - intros [= <-]. simpl. by rewrite !app_nil_r.
  - unfold set_html_body. case_bool_decide; simpl; intros [= <-]; simpl;
      by rewrite !app_nil_r.
  - intros [= <-]. simpl. by rewrite !app_nil_r.
  - intros H. destruct (set_metadata_frame _ _ _ H) as (-> & -> & -> & _).
    by rewrite !app_nil_r.
  - intros [= <-]. simpl. by rewrite !app_nil_r.
  - intros [= <-]. simpl. by rewrite !app_nil_r.
  - intros [= <-]. simpl. by rewrite !app_nil_r.
  - intros [= <-]. simpl. by rewrite !app_nil_r.
  - intros [= <-]. simpl. by rewrite !app_nil_r.
Qed.

(** X5.  Whatever other setters are called in between, [all_recipients] after
    a sequence of calls is what it was, followed by the addresses of the
    recipient calls in the order of the calls: no other setter adds,
    removes or reorders a recipient. *)
Theorem calls_all_recipients (cs : list setter) (p p' : MailgunPayload) :
  calls cs p = Ok p' ->
  all_recipients p' = (all_recipients p ++ concat (map recipients_of cs))%list.
Proof.
  revert p. induction cs as [|c cs IH]; intros p; simpl.
  - intros [= <-]. by rewrite app_nil_r.
  - destruct (call c p) as [q|] eqn:Hc; simpl; [|done].
    intros Hcs. rewrite (IH _ Hcs). destruct (call_frame _ _ _ Hc) as (-> & _).
    by rewrite app_assoc.
Qed.

Lemma calls_all_recipients_witness :
  exists p', calls example_build init_payload = Ok p'
    /\ all_recipients p' = [a_x; b_x; c_y].
Proof.
  destruct (calls example_build init_payload) as [p'|ex] eqn:Hcalls;
    [|vm_compute in Hcalls; discriminate].
  exists p'. split; [reflexivity|].
  apply (calls_all_recipients example_build init_payload p' Hcalls).
Defined.

(** X6.  The file parts after a sequence of calls are those it had, followed
    by one part per attachment in the order of the calls, under the field
    [inline] for an inline attachment and [attachment] otherwise, with
    the name, content and mimetype of the attachment. *)
Theorem calls_files (cs : list setter) (p p' : MailgunPayload) :
  calls cs p = Ok p' ->
  files p' = (files p ++ concat (map parts_of cs))%list.
Proof.
  revert p. induction cs as [|c cs IH]; intros p; simpl.
  - intros [= <-]. by rewrite app_nil_r.
  - destruct (call c p) as [q|] eqn:Hc; simpl; [|done].
    intros Hcs. rewrite (IH _ Hcs). destruct (call_frame _ _ _ Hc) as (_ & -> & _).
    by rewrite app_assoc.
Qed.

Lemma calls_files_witness :
  exists p', calls example_build init_payload = Ok p'
    /\ files p' = [("attachment", ("report.pdf", "%PDF", "application/pdf"));
                   ("inline", ("logo.png", "PNG", "image/png"))].
Proof.
  destruct (calls example_build init_payload) as [p'|ex] eqn:Hcalls;
    [|vm_compute in Hcalls; discriminate].
  exists p'. split; [reflexivity|].
  apply (calls_files example_build init_payload p' Hcalls).
Defined.

Lemma calls_sender_domain cs : forall p p',
  Forall (fun c => sets_sender_domain c = false) cs ->
  calls cs p = Ok p' -> sender_domain p' = sender_domain p.
Proof.
  induction cs as [|c cs IH]; intros p p' Hcs; simpl.
  - by intros [= <-].
  - apply Forall_cons in Hcs as [Hc Hcs].
    destruct (call c p) as [q|] eqn:Hq; simpl; [|done].
    intros Hrest. rewrite (IH _ _ Hcs Hrest).
    destruct (call_frame _ _ _ Hq) as (_ & _ & Hsd). by apply Hsd.
Qed.

(** X7.  Only the from setter and the esp_extra setter give a payload its
    sender domain: a payload built without them has none, and its endpoint
    fails with the configuration error. *)
Theorem endpoint_needs_sender_domain (cs : list setter) (p : MailgunPayload) :
  Forall (fun c => sets_sender_domain c = false) cs ->
  calls cs init_payload = Ok p ->
  sender_domain p = PyNone
  /\ get_api_endpoint p = Raise (AnymailError unknown_sender_domain).
Proof.
  intros Hcs Hp. pose proof (calls_sender_domain _ _ _ Hcs Hp) as Hsd.
  split; [done|]. unfold get_api_endpoint. by rewrite Hsd.
Qed.

Lemma endpoint_needs_sender_domain_witness :
  exists p, calls no_sender_build init_payload = Ok p
    /\ get_api_endpoint p = Raise (AnymailError unknown_sender_domain).
Proof.
  assert (Forall (fun c => sets_sender_domain c = false) no_sender_build) as Hcs
    by (repeat constructor).
  destruct (calls no_sender_build init_payload) as [p|ex] eqn:Hcalls;
    [|vm_compute in Hcalls; discriminate].
  exists p. split; [reflexivity|].
  apply (endpoint_needs_sender_domain no_sender_build p Hcs Hcalls).
Defined.

(** ** Notices for html bodies *)

Lemma call_html_frame c p q :
  is_html_body c = false -> is_esp_extra c = false -> call c p = Ok q ->
  unsupported q = unsupported p /\ data q !! "html" = data p !! "html".
Proof.
  destruct c; simpl; try done; intros _ _.
  - intros H. destruct (set_from_email_frame _ _ _ H) as (_ & _ & ->).
    by rewrite (set_from_email_data _ _ _ H), lookup_insert_ne.
  - unfold set_recipients. case_bool_decide as Ht; [|done].
    destruct emails; intros [= <-]; [done|]. simpl. split; [done|].
    apply lookup_insert_ne. intros ->.
    repeat (apply elem_of_cons in Ht as [Ht|Ht]; [discriminate|]).
    by apply elem_of_nil in Ht.
  - intros [= <-]. simpl. by rewrite lookup_insert_ne.
  - unfold set_reply_to. destruct emails; intros [= <-]; [done|]. simpl.
    by rewrite lookup_insert_ne.
  - intros [= <-]. destruct (set_extra_headers_frame headers p) as (_ & _ & _ & ->).
    split; [done|]. apply set_extra_headers_data. intros h Heq.
    change ("h:" +:+ h) with (String "h" (String ":" h)) in Heq. discriminate.
  - intros [= <-]. simpl. by rewrite lookup_insert_ne.
  - intros [= <-]. done.
  - intros H. destruct (set_metadata_frame _ _ _ H) as (_ & _ & _ & ->).
    split; [done|]. apply (set_metadata_other _ _ _ _ H). intros key _ Heq.
    change ("v:" +:+ key) with (String "v" (String ":" key)) in Heq. discriminate.
  - intros [= <-]. simpl. by rewrite lookup_insert_ne.
  - intros [= <-]. simpl. by rewrite lookup_insert_ne.
  - intros [= <-]. simpl. by rewrite lookup_insert_ne.
  - intros [= <-]. simpl. by rewrite lookup_insert_ne.
Qed.

Lemma html_body_notices_from cs : forall p p',
  Forall (fun c => is_esp_extra c = false) cs ->
  calls cs p = Ok p' ->
  unsupported p'
  = (unsupported p
     ++ replicate (html_bodies cs
                   - (if bool_decide (is_Some (data p !! "html")) then 0 else 1))
                  "multiple html parts")%list
  /\ (is_Some (data p' !! "html")
      <-> is_Some (data p !! "html") \/ 0 < html_bodies cs).
Proof.
  induction cs as [|c cs IH]; intros p p' Hcs; simpl.
  - intros [= <-]. rewrite app_nil_r. split; [done|]. unfold html_bodies. simpl.
    split; [by left|]. intros [?|?]; [done|lia].
  - apply Forall_cons in Hcs as [Hc Hcs].
    destruct (call c p) as [q|] eqn:Hq; simpl; [|done]. intros Hrest.
    destruct (IH _ _ Hcs Hrest) as [Hnotices Hhtml]. clear IH.
    destruct (is_html_body c) eqn:Hbody.
    + destruct c; try discriminate. simpl in Hq. unfold set_html_body in Hq.
      assert (is_Some (data q !! "html")) as Hq_html.
      { destruct (bool_decide (is_Some (data p !! "html"))); simpl in Hq;
          injection Hq as <-; simpl; rewrite lookup_insert_eq; by eexists. }
      rewrite bool_decide_eq_true_2 in Hnotices by done.
      rewrite Nat.sub_0_r in Hnotices. unfold html_bodies in *. simpl. split.
      * rewrite Hnotices.
        destruct (bool_decide (is_Some (data p !! "html"))); simpl in Hq;
          injection Hq as <-; simpl.
        -- by rewrite <- app_assoc.
        -- by rewrite Nat.sub_0_r.
      * split; [intros _; right; lia|]. intros _. apply Hhtml. by left.
    + destruct (call_html_frame _ _ _ Hbody Hc Hq) as [Hu Hd].
      rewrite Hu, Hd in *. unfold html_bodies in *. simpl. by rewrite Hbody.
Qed.

(** X8.  On a payload built without [esp_extra], the first html body is stored
    without a notice and every further one adds the notice
    [multiple html parts]: [n] html bodies leave [n - 1] notices, and the
    [html] field is there exactly when there was an html body. *)
Theorem html_body_notices (cs : list setter) (p : MailgunPayload) :
  Forall (fun c => is_esp_extra c = false) cs ->
  calls cs init_payload = Ok p ->
  unsupported p = replicate (html_bodies cs - 1) "multiple html parts"
  /\ (is_Some (data p !! "html") <-> 0 < html_bodies cs).
Proof.
  intros Hcs Hp. destruct (html_body_notices_from _ _ _ Hcs Hp) as [Hu Hd].
  split; [exact Hu|]. rewrite Hd. split; [|by right].
  intros [[? Hsome]|?]; [|done].
  change (data init_payload) with (∅ : gmap string pyval) in Hsome.
  by rewrite lookup_empty in Hsome.
Qed.

Lemma html_body_notices_witness :
  exists p, calls example_build init_payload = Ok p
    /\ unsupported p = ["multiple html parts"].
Proof.
  assert (Forall (fun c => is_esp_extra c = false) example_build) as Hcs
    by (repeat constructor).
  destruct (calls example_build init_payload) as [p|ex] eqn:Hcalls;
    [|vm_compute in Hcalls; discriminate].
  exists p. split; [reflexivity|].
  apply (html_body_notices example_build p Hcs Hcalls).
Defined.

(** ** Fields are never removed *)

Lemma set_data_keeps_field f v p k :
  is_Some (data p !! k) -> is_Some (data (set_data f v p) !! k).
Proof. intros Hk. simpl. apply lookup_insert_is_Some'. by right. Qed.

Lemma set_extra_headers_keeps_field headers : forall p k,
  is_Some (data p !! k) ->
  is_Some (data (foldl (fun p kv => set_data ("h:" +:+ kv.1) kv.2 p) p headers) !! k).
Proof.
  induction headers as [|[h x] headers IH]; intros p k Hk; simpl; [done|].
  apply IH. by apply set_data_keeps_field.
Qed.

Lemma set_metadata_keeps_field metadata : forall p p' k,
  set_metadata metadata p = Ok p' -> is_Some (data p !! k) -> is_Some (data p' !! k).
Proof.
  induction metadata as [|[key value] metadata IH]; intros p p' k; simpl.
  - by intros [= <-].
  - destruct (serialize_json value) as [json|]; simpl; [|done].
    intros Hrest Hk. apply (IH _ _ _ Hrest). by apply set_data_keeps_field.
Qed.

Lemma call_keeps_field c p p' k :
  k <> "sender_domain" -> call c p = Ok p' ->
  is_Some (data p !! k) -> is_Some (data p' !! k).
Proof.
  intros Hk. destruct c; simpl.
  - intros H. rewrite (set_from_email_data _ _ _ H). intros ?.
    apply lookup_insert_is_Some'. by right.
  - unfold set_recipients. case_bool_decide; [|done].
    destruct emails; intros [= <-]; [done|]. apply set_data_keeps_field.
  - intros [= <-]. apply set_data_keeps_field.
  - unfold set_reply_to. destruct emails; intros [= <-]; [done|].
    apply set_data_keeps_field.
  - intros [= <-]. apply set_extra_headers_keeps_field.
  - intros [= <-]. apply set_data_keeps_field.
  - unfold set_html_body. case_bool_decide; simpl; intros [= <-] Hsome;
      simpl; apply lookup_insert_is_Some'; by right.
  - by intros [= <-].
  - apply set_metadata_keeps_field.
  - intros [= <-]. apply set_data_keeps_field.
  - intros [= <-]. apply set_data_keeps_field.
  - intros [= <-]. apply set_data_keeps_field.
  - intros [= <-]. apply set_data_keeps_field.
  - intros [= <-] Hsome. simpl. rewrite lookup_delete_ne by done.
    apply lookup_union_is_Some. by right.
Qed.

(** X9.  No setter removes a field of the data: a field that is set stays set
    through any further calls (its value may be replaced); the one field
    that is ever taken out is [sender_domain]. *)
Theorem calls_keep_fields (cs : list setter) (p p' : MailgunPayload) (k : string) :
  k <> "sender_domain" ->
  calls cs p = Ok p' ->
  is_Some (data p !! k) -> is_Some (data p' !! k).
Proof.
  intros Hk. revert p. induction cs as [|c cs IH]; intros p; simpl.
  - by intros [= <-].
  - destruct (call c p) as [q|] eqn:Hq; simpl; [|done].
    intros Hrest Hsome. apply (IH _ Hrest). by eapply call_keeps_field.
Qed.

Lemma calls_keep_fields_witness :
  exists p', calls [SetSubject (PyStr "Hello"); SetEspExtra subject_extra]
               from_a_example = Ok p'
    /\ is_Some (data p' !! "from").
Proof.
  destruct (calls [SetSubject (PyStr "Hello"); SetEspExtra subject_extra] from_a_example)
    as [p'|ex] eqn:Hcalls; [|vm_compute in Hcalls; discriminate].
  exists p'. split; [reflexivity|].
  apply (calls_keep_fields [SetSubject (PyStr "Hello"); SetEspExtra subject_extra]
           from_a_example p' "from"); [discriminate|exact Hcalls|].
  exists (PyStr "a@example.com"). reflexivity.
Defined.

(** ** Extra headers *)

Lemma set_extra_headers_other headers : forall p f,
  (forall k, k ∈ headers.*1 -> f <> "h:" +:+ k) ->
  data (foldl (fun p kv => set_data ("h:" +:+ kv.1) kv.2 p) p headers) !! f = data p !! f.
Proof.
  induction headers as [|[h x] headers IH]; intros p f Hf; simpl; [done|].
  rewrite IH.
  - simpl. apply lookup_insert_ne. intros <-. eapply Hf; [|done].
    apply elem_of_cons. by left.
  - intros k Hin. apply Hf. apply elem_of_cons. by right.
Qed.

(** X10.  For headers with distinct names, the extra-headers setter stores each
    value under [h:<name>], and changes no other field of the data and
    nothing else of the payload. *)
Theorem set_extra_headers_fields (headers : list (string * pyval)) (p : MailgunPayload) :
  NoDup headers.*1 ->
  exists p', set_extra_headers headers p = Ok p'
    /\ (forall k v, (k, v) ∈ headers -> data p' !! ("h:" +:+ k) = Some v)
    /\ (forall f, (forall k, k ∈ headers.*1 -> f <> "h:" +:+ k) ->
                  data p' !! f = data p !! f)
    /\ sender_domain p' = sender_domain p /\ all_recipients p' = all_recipients p
    /\ files p' = files p /\ unsupported p' = unsupported p.
Proof.
  intros Hdup. eexists. split; [reflexivity|]. split; [|split].
  - revert p Hdup. induction headers as [|[h x] headers IH]; intros p Hdup k v Hin.
    + by apply elem_of_nil in Hin.
    + rewrite fmap_cons in Hdup. apply NoDup_cons in Hdup as [Hfresh Hdup].
      apply elem_of_cons in Hin as [[= -> ->]|Hin]; [|by apply IH].
      simpl. rewrite set_extra_headers_other.
      * simpl. apply lookup_insert_eq.
      * intros k Hin Heq. apply (inj (String.app "h:")) in Heq as ->. by apply Hfresh.
  - apply set_extra_headers_other.
  - apply set_extra_headers_frame.
Qed.

Lemma set_extra_headers_fields_witness :
  exists p', set_extra_headers example_headers from_a_example = Ok p'
    /\ data p' !! "h:X-Campaign" = Some (PyStr "spring")
    /\ data p' !! "h:X-Priority" = Some (PyInt 1)
    /\ data p' !! "from" = Some (PyStr "a@example.com").
Proof.
  assert (NoDup example_headers.*1) as Hdup by compute_done.
  destruct (set_extra_headers_fields example_headers from_a_example Hdup)
    as (p' & Hp' & Hin & Hout & _).
  exists p'. split; [exact Hp'|]. split; [|split].
  - apply (Hin "X-Campaign"). apply elem_of_cons. by left.
  - apply (Hin "X-Priority"). apply elem_of_cons. right. apply elem_of_cons. by left.
  - rewrite Hout; [reflexivity|]. intros k _ Heq.
    change ("h:" +:+ k) with (String "h" (String ":" k)) in Heq. discriminate.
Defined.

(** ** More on metadata *)

(** X11.  A successful metadata setter writes only fields [v:<key>] for the keys
    of the mapping: every other field of the data, the sender domain, the
    recipients, the files and the notices are unchanged. *)
Theorem set_metadata_only_v_fields (metadata : list (string * pyval))
    (p p' : MailgunPayload) :
  set_metadata metadata p = Ok p' ->
  (forall f, (forall key, key ∈ metadata.*1 -> f <> "v:" +:+ key) ->
             data p' !! f = data p !! f)
  /\ sender_domain p' = sender_domain p /\ all_recipients p' = all_recipients p
  /\ files p' = files p /\ unsupported p' = unsupported p.
Proof.
  intros Hp'. split.
  - intros f Hf. by apply (set_metadata_other _ _ _ _ Hp').
  - by apply (set_metadata_frame metadata).
Qed.

Lemma set_metadata_only_v_fields_witness :
  exists p', set_metadata example_metadata from_a_example = Ok p'
    /\ data p' !! "from" = Some (PyStr "a@example.com")
    /\ sender_domain p' = PyStr "example.com".
Proof.
  destruct (set_metadata example_metadata from_a_example) as [p'|ex] eqn:Hset;
    [|vm_compute in Hset; discriminate].
  destruct (set_metadata_only_v_fields example_metadata from_a_example p' Hset)
    as (Hdata & Hsd & _).
  exists p'. split; [reflexivity|]. split; [|exact Hsd].
  rewrite Hdata; [reflexivity|]. intros key _ Heq.
  change ("v:" +:+ key) with (String "v" (String ":" key)) in Heq. discriminate.
Defined.

(** X12.  A value that is not a string is stored exactly as the string of its
    JSON text would be: the stored field does not tell the number [42]
    from the string [42]. *)
Theorem set_metadata_json_text (key : string) (value : pyval) (json : string)
    (rest : list (string * pyval)) (p : MailgunPayload) :
  (forall s, value <> PyStr s) ->
  json_dumps value = Some json ->
  set_metadata ((key, value) :: rest) p = set_metadata ((key, PyStr json) :: rest) p.
Proof.
  intros Hvalue Hjson.
  rewrite (set_metadata_cons _ _ _ _ _ Hjson).
  rewrite (set_metadata_cons key (PyStr json) (json_quote json) rest p eq_refl).
  destruct value; try done. by destruct (Hvalue s).
Qed.

Lemma set_metadata_json_text_witness :
  set_metadata [("count", PyInt 42)] init_payload
  = set_metadata [("count", PyStr "42")] init_payload.
Proof.
  apply (set_metadata_json_text "count" (PyInt 42) "42" [] init_payload);
    [discriminate|reflexivity].
Defined.

(** ** More on provider-specific overrides *)

(** X13.  Applying the same esp_extra mapping a second time changes nothing. *)
Theorem set_esp_extra_idempotent (extra : gmap string pyval) (p : MailgunPayload) :
  exists p1, set_esp_extra extra p = Ok p1 /\ set_esp_extra extra p1 = Ok p1.
Proof.
  eexists. split; [reflexivity|]. unfold set_esp_extra. f_equal.
  unfold with_sender_domain, with_data. simpl. f_equal.
  - destruct (extra !! "sender_domain") as [v|] eqn:Hv.
    + rewrite !(lookup_union_Some_l _ _ _ _ Hv). reflexivity.
    + rewrite (lookup_union_r extra (delete _ _)) by done.
      rewrite lookup_delete_eq. reflexivity.
  - apply map_eq. intros k. destruct (decide (k = "sender_domain")) as [->|Hk].
    + by rewrite !lookup_delete_eq.
    + rewrite !lookup_delete_ne by done. rewrite !lookup_union.
      rewrite lookup_delete_ne by done. rewrite lookup_union.
      by destruct (extra !! k), (data p !! k).
Qed.

(** X14.  On a payload built by the setters, an empty esp_extra mapping changes
    nothing. *)
Theorem set_esp_extra_empty (cs : list setter) (p : MailgunPayload) :
  calls cs init_payload = Ok p ->
  set_esp_extra ∅ p = Ok p.
Proof.
  intros Hcs.
  assert (data p !! "sender_domain" = None) as Hinv
    by (by eapply calls_no_sender_domain; [|exact Hcs]).
  unfold set_esp_extra, with_sender_domain, with_data. simpl.
  rewrite (left_id_L ∅ (∪)), Hinv, (delete_id _ _ Hinv). by destruct p.
Qed.

Lemma set_esp_extra_empty_witness : set_esp_extra ∅ from_a_example = Ok from_a_example.
Proof.
  apply (set_esp_extra_empty [SetFromEmail a_example] from_a_example). reflexivity.
Defined.

(** ** More on parsing the response *)

Lemma statuses_dom (st : AnymailRecipientStatus) (recipients : list ParsedEmail)
    (statuses : gmap string AnymailRecipientStatus) :
  dom (foldl (fun statuses recipient => <[email recipient := st]> statuses)
             statuses recipients)
  = list_to_set (email <$> recipients) ∪ dom statuses.
Proof.
  apply set_eq. intros k.
  rewrite elem_of_dom, statuses_lookup, elem_of_union, elem_of_list_to_set, elem_of_dom.
  destruct (decide (k ∈ email <$> recipients)) as [Hin|Hin].
  - split; [by left|]. intros _. by eexists.
  - split; [by right|]. by intros [?|?].
Qed.

Lemma statuses_size (st : AnymailRecipientStatus) (recipients : list ParsedEmail) :
  forall statuses : gmap string AnymailRecipientStatus,
    size (foldl (fun statuses recipient => <[email recipient := st]> statuses)
                statuses recipients)
    <= size statuses + length recipients.
Proof.
  induction recipients as [|r recipients IH]; intros statuses; simpl; [lia|].
  etrans; [apply IH|]. rewrite map_size_insert.
  destruct (statuses !! email r); simpl; lia.
Qed.

Section ResponseProperties.
Context {Response : Type}.
Variable deserialize_json_response : Response -> result pyval.

Lemma parse_recipient_status_ok_inv response payload statuses :
  parse_recipient_status deserialize_json_response response payload = Ok statuses ->
  exists items message_id mailgun_message,
    deserialize_json_response response = Ok (PyDict items)
    /\ dict_get "id" items = Some message_id
    /\ dict_get "message" items = Some (PyStr mailgun_message)
    /\ startswith mailgun_message "Queued" = true
    /\ statuses
       = foldl (fun statuses recipient =>
                  <[email recipient := {| message_id := message_id;
                                          status := "queued" |}]> statuses)
               ∅ (all_recipients payload).
Proof.
  unfold parse_recipient_status.
  destruct (deserialize_json_response response) as [parsed|]; simpl; [|done].
  destruct parsed as [|b|n|s|l|items|? ?]; simpl; try done.
  destruct (dict_get "id" items) as [message_id|] eqn:Hid; simpl; [|done].
  destruct (dict_get "message" items) as [message|] eqn:Hmessage; simpl; [|done].
  destruct message as [|b|n|s|l|items'|? ?]; try done.
  change (py_startswith (PyStr s) "Queued") with (Ok (startswith s "Queued")).
  destruct (startswith s "Queued") eqn:Hqueued; simpl; [|done].
  intros [= <-]. by exists items, message_id, s.
Qed.

(** X15.  Parsing returns a status mapping exactly when the body decodes to an
    object that has an [id] and a [message] string starting with [Queued];
    in every other case it raises. *)
Theorem parse_recipient_status_ok_iff (response : Response) (payload : MailgunPayload) :
  (exists statuses,
      parse_recipient_status deserialize_json_response response payload = Ok statuses)
  <-> (exists items message_id mailgun_message,
          deserialize_json_response response = Ok (PyDict items)
          /\ dict_get "id" items = Some message_id
          /\ dict_get "message" items = Some (PyStr mailgun_message)
          /\ startswith mailgun_message "Queued" = true).
Proof.
  split.
  - intros [statuses Hparse].
    destruct (parse_recipient_status_ok_inv _ _ _ Hparse)
      as (items & message_id & mailgun_message & ? & ? & ? & ? & _).
    by exists items, message_id, mailgun_message.
  - intros (items & message_id & mailgun_message & Hresponse & Hid & Hmessage & Hqueued).
    rewrite (parse_recipient_status_items _ _ _ _ _ _ Hresponse Hid Hmessage).
    simpl. rewrite Hqueued. simpl. by eexists.
Qed.

(** X16.  The keys of a returned mapping are exactly the plain emails of
    [all_recipients]: addresses with the same email share one entry, so
    the mapping has at most as many entries as there are recipients, and
    it is empty when there is no recipient. *)
Theorem parse_recipient_status_keys (response : Response) (payload : MailgunPayload)
    (statuses : gmap string AnymailRecipientStatus) :
  parse_recipient_status deserialize_json_response response payload = Ok statuses ->
  dom statuses = list_to_set (email <$> all_recipients payload)
  /\ size statuses <= length (all_recipients payload)
  /\ (all_recipients payload = [] -> statuses = ∅).
Proof.
  intros Hparse.
  destruct (parse_recipient_status_ok_inv _ _ _ Hparse)
    as (items & message_id & mailgun_message & _ & _ & _ & _ & ->).
  split; [|split].
  - rewrite statuses_dom, dom_empty_L. by rewrite (right_id_L ∅ (∪)).
  - etrans; [apply statuses_size|]. by rewrite map_size_empty.
  - by intros ->.
Qed.

(** X17.  A [message] that is decoded JSON but not a string (null, a boolean, a
    number, a list or an object) makes parsing raise [AttributeError]: the
    error is not turned into an API error. *)
Theorem parse_recipient_status_message_not_str (response : Response)
    (payload : MailgunPayload) (items : list (string * pyval))
    (message_id mailgun_message : pyval) :
  deserialize_json_response response = Ok (PyDict items) ->
  dict_get "id" items = Some message_id ->
  dict_get "message" items = Some mailgun_message ->
  json_non_string mailgun_message = true ->
  parse_recipient_status deserialize_json_response response payload
  = Raise AttributeError.
Proof.
  intros Hresponse Hid Hmessage Hjson.
  rewrite (parse_recipient_status_items _ _ _ _ _ _ Hresponse Hid Hmessage).
  by destruct mailgun_message.
Qed.

(** X18.  From building to parsing: after any recipient calls with the types
    [to], [cc] and [bcc] on a new payload, a queued response is parsed to a
    mapping whose keys are exactly the plain emails of all the addresses
    passed, each with the message id of the response. *)
Theorem recipient_calls_then_parse (l : list (string * list ParsedEmail))
    (response : Response) (items : list (string * pyval)) (message_id : pyval)
    (mailgun_message : string) :
  Forall (fun c => c.1 ∈ ["to"; "cc"; "bcc"]) l ->
  deserialize_json_response response = Ok (PyDict items) ->
  dict_get "id" items = Some message_id ->
  dict_get "message" items = Some (PyStr mailgun_message) ->
  startswith mailgun_message "Queued" = true ->
  exists p statuses,
    calls (recipient_calls l) init_payload = Ok p
    /\ parse_recipient_status deserialize_json_response response p = Ok statuses
    /\ dom statuses = list_to_set (email <$> concat l.*2)
    /\ (forall k st, statuses !! k = Some st ->
          st = {| message_id := message_id; status := "queued" |}).
Proof.
  intros Hvalid Hresponse Hid Hmessage Hqueued.
  destruct (recipient_calls_spec l init_payload Hvalid) as (p & Hp & Hall & _).
  simpl in Hall.
  exists p. eexists. split; [exact Hp|].
  rewrite (parse_recipient_status_items _ _ _ _ _ _ Hresponse Hid Hmessage).
  simpl. rewrite Hqueued. simpl. split; [reflexivity|]. split.
  - rewrite statuses_dom, dom_empty_L, Hall. by rewrite (right_id_L ∅ (∪)).
  - intros k st. rewrite statuses_lookup. case_decide; [|done]. by intros [= <-].
Qed.
End ResponseProperties.

Lemma parse_recipient_status_keys_witness :
  exists statuses,
    parse_recipient_status decode queued_response to_a_b = Ok statuses
    /\ dom statuses = {[ "a@x.com"; "b@x.com" ]}.
Proof.
  destruct (parse_recipient_status decode queued_response to_a_b)
    as [statuses|ex] eqn:Hparse; [|vm_compute in Hparse; discriminate].
  exists statuses. split; [reflexivity|].
  rewrite (proj1 (parse_recipient_status_keys decode queued_response to_a_b statuses
                    Hparse)).
  vm_compute. reflexivity.
Defined.

Lemma parse_recipient_status_message_not_str_witness :
  parse_recipient_status decode
    (Some (PyDict [("id", PyStr "MSG123"); ("message", PyNone)])) to_a_b
  = Raise AttributeError.
Proof.
  apply (parse_recipient_status_message_not_str decode
           (Some (PyDict [("id", PyStr "MSG123"); ("message", PyNone)])) to_a_b
           [("id", PyStr "MSG123"); ("message", PyNone)] (PyStr "MSG123") PyNone
           eq_refl eq_refl eq_refl eq_refl).
Defined.

Lemma recipient_calls_then_parse_witness :
  exists p statuses,
    calls (recipient_calls example_recipients) init_payload = Ok p
    /\ parse_recipient_status decode queued_response p = Ok statuses
    /\ dom statuses = list_to_set (email <$> [a_x; b_x; c_y; a_x]).
Proof.
  assert (Forall (fun c => c.1 ∈ ["to"; "cc"; "bcc"]) example_recipients) as Hvalid
    by compute_done.
  destruct (recipient_calls_then_parse decode example_recipients queued_response
              [("id", PyStr "MSG123"); ("message", PyStr "Queued. Thank you.")]
              (PyStr "MSG123") "Queued. Thank you." Hvalid eq_refl eq_refl eq_refl eq_refl)
    as (p & statuses & Hp & Hparse & Hdom & _).
  exists p, statuses. split; [exact Hp|]. split; [exact Hparse|exact Hdom].
Defined.
